(** * editty: the sticker screen ([src/app/(tabs)/index.tsx])

    A shallow embedding of the [Index] component: its React state, the
    handlers it defines, the element tree it returns, and the calls it makes
    into the platform libraries (image picker, view-shot capture, media
    library, alert, console).  Library calls are recorded in a trace of
    events; what a library call answers is read from a [world] given to
    each handler invocation. *)

From Stdlib Require Import String List ZArith Bool.
Import ListNotations.
Open Scope string_scope.
Open Scope list_scope.

(** ** JavaScript values kept in the component's state *)

(** The state cells [image] and [pickedEmoji] are typed
    [String | undefined] and [ImageSourcePropType | undefined], but
    [onReset] stores the result of [require(...)] in [image], so the model
    keeps a JavaScript value in both. *)
Inductive value : Type :=
| VUndefined
| VNull
| VBoolean (b : bool)
| VNumber (n : Z)
| VString (s : string)
| VObject (handle : positive).

(** Truthiness, as used by [image ? image : ImageProvider],
    [pickedEmoji && ...] and [if (localUri)]. *)
Definition truthy (v : value) : bool :=
  match v with
  | VUndefined => false
  | VNull => false
  | VBoolean b => b
  | VNumber n => negb (Z.eqb n 0)
  | VString s => match s with EmptyString => false | String _ _ => true end
  | VObject _ => true
  end.

(** What a rejected promise or a failed property access carries. *)
Inductive error : Type :=
| Rejection (reason : string)
| TypeError (message : string).

(** ** Library data *)

(** expo-image-picker: only [uri] of an asset is read by the screen. *)
Record ImagePickerAsset : Type := mkAsset { uri : string }.

(** [assets] is [null] on a cancelled result. *)
Record ImagePickerResult : Type := mkPickerResult {
  canceled : bool;
  assets : option (list ImagePickerAsset)
}.

Inductive PermissionStatus : Type := Granted | Denied | Undetermined.

(** expo-modules-core [PermissionResponse]; [usePermissions] yields this or
    [null]. *)
Record PermissionResponse : Type := mkPermission {
  status : PermissionStatus;
  granted : bool;
  canAskAgain : bool
}.

(** ** Effects *)

Inductive logged : Type :=
| LogError (e : error)
| LogPickerResult (r : ImagePickerResult).

Inductive event : Type :=
| EvRequestPermission
| EvLaunchImageLibrary (allowsEditing : bool) (mediaTypes : list string) (quality : Z)
| EvCaptureRef (height : Z) (quality : Z)
| EvSaveToLibrary (localUri : value)
| EvAlert (message : string)
| EvConsoleLog (what : logged).

Inductive completion (A : Type) : Type :=
| Normal (a : A)
| Throw (e : error).

Arguments Normal {A} a.
Arguments Throw {A} e.

(** What the platform answers during one handler invocation. *)
Record world : Type := mkWorld {
  launchImageLibraryAsync : completion ImagePickerResult;
  captureRef : completion value;
  saveToLibraryAsync : value -> completion unit
}.

(** ** React state of [Index] *)

Record state : Type := mkState {
  image : value;
  showAppOptions : bool;
  showEmojiPickerModal : bool;
  pickedEmoji : value
}.

(** The four [useState] initial values. *)
Definition initial_state : state :=
  {| image := VUndefined;
     showAppOptions := false;
     showEmojiPickerModal := false;
     pickedEmoji := VUndefined |}.

(** ** The handler monad: state, trace and exceptions *)

Record result (A : Type) : Type := mkResult {
  outcome : completion A;
  after : state;
  trace : list event
}.

Arguments mkResult {A} outcome after trace.
Arguments outcome {A} r.
Arguments after {A} r.
Arguments trace {A} r.

Definition handler (A : Type) : Type := state -> result A.

Definition ret {A : Type} (a : A) : handler A :=
  fun s => mkResult (Normal a) s [].

Definition throw {A : Type} (e : error) : handler A :=
  fun s => mkResult (Throw e) s [].

Definition bind {A B : Type} (m : handler A) (k : A -> handler B) : handler B :=
  fun s =>
    let r := m s in
    match outcome r with
    | Normal a =>
        let r' := k a (after r) in
        mkResult (outcome r') (after r') (trace r ++ trace r')
    | Throw e => mkResult (Throw e) (after r) (trace r)
    end.

(** [try { body } catch (error) { recover error }] *)
Definition try_catch {A : Type} (body : handler A) (recover : error -> handler A)
  : handler A :=
  fun s =>
    let r := body s in
    match outcome r with
    | Normal a => r
    | Throw e =>
        let r' := recover e (after r) in
        mkResult (outcome r') (after r') (trace r ++ trace r')
    end.

Declare Scope handler_scope.
Delimit Scope handler_scope with handler.
Notation "x <- c1 ;; c2" := (bind c1 (fun x => c2))
  (at level 61, c1 at next level, right associativity) : handler_scope.
Notation "c1 ;; c2" := (bind c1 (fun _ => c2))
  (at level 61, right associativity) : handler_scope.
Open Scope handler_scope.

(** [await f(...)]: the call is recorded, then the promise settles. *)
Definition await {A : Type} (call : event) (settled : completion A) : handler A :=
  fun s => mkResult settled s [call].

Definition alert (message : string) : handler unit :=
  fun s => mkResult (Normal tt) s [EvAlert message].

Definition console_log (what : logged) : handler unit :=
  fun s => mkResult (Normal tt) s [EvConsoleLog what].

(** The four state setters returned by [useState]. *)
Definition setImage (v : value) : handler unit :=
  fun s =>
    mkResult (Normal tt)
      {| image := v;
         showAppOptions := showAppOptions s;
         showEmojiPickerModal := showEmojiPickerModal s;
         pickedEmoji := pickedEmoji s |} [].

Definition setShowAppOptions (b : bool) : handler unit :=
  fun s =>
    mkResult (Normal tt)
      {| image := image s;
         showAppOptions := b;
         showEmojiPickerModal := showEmojiPickerModal s;
         pickedEmoji := pickedEmoji s |} [].

Definition setShowEmojiPickerModal (b : bool) : handler unit :=
  fun s =>
    mkResult (Normal tt)
      {| image := image s;
         showAppOptions := showAppOptions s;
         showEmojiPickerModal := b;
         pickedEmoji := pickedEmoji s |} [].

Definition setPickedEmoji (v : value) : handler unit :=
  fun s =>
    mkResult (Normal tt)
      {| image := image s;
         showAppOptions := showAppOptions s;
         showEmojiPickerModal := showEmojiPickerModal s;
         pickedEmoji := v |} [].

(** [result.assets[0].uri]: reading index 0 of [null], or [.uri] of the
    [undefined] found past the end of an empty array, throws. *)
Definition first_asset_uri (r : ImagePickerResult) : handler string :=
  match assets r with
  | None => throw (TypeError "Cannot read properties of null (reading '0')")
  | Some l =>
      match nth_error l 0 with
      | Some a => ret (uri a)
      | None => throw (TypeError "Cannot read properties of undefined (reading 'uri')")
      end
  end.

(** ** The handlers of [Index] *)

Definition pickImageAsync (w : world) : handler unit :=
  result <- await (EvLaunchImageLibrary true ["images"] 1)
                  (launchImageLibraryAsync w) ;;
  if negb (canceled result) then
    picked <- first_asset_uri result ;;
    setImage (VString picked) ;;
    setShowAppOptions true
  else
    alert "You did not select an Image" ;;
    console_log (LogPickerResult result).

Definition onAddSticker : handler unit :=
  setShowEmojiPickerModal true.

Definition onEmojiModalClose : handler unit :=
  setShowEmojiPickerModal false.

Definition onSaveImageAsync (w : world) : handler unit :=
  try_catch
    (localUri <- await (EvCaptureRef 700 1) (captureRef w) ;;
     await (EvSaveToLibrary localUri) (saveToLibraryAsync w localUri) ;;
     if truthy localUri then
       alert "Saved Succesfully!!!"
     else
       alert "Save Failed!! ):")
    (fun error => console_log (LogError error)).

(** The inline [onPress] of the "Use this photo" button. *)
Definition useThisPhoto_onPress : handler unit :=
  setShowAppOptions true.

(** ** The element tree *)

Definition press : Type := world -> handler unit.

Inductive controls : Type :=
| OptionsRow (reset addSticker save : press)
| Footer (choosePhoto useThisPhoto : press).

Record view : Type := mkView {
  imageViewer_path : value;
  emojiSticker_source : option value;
  buttons : controls;
  emojiPicker_isVisible : bool;
  emojiPicker_onClose : handler unit;
  emojiList_onSelect : value -> handler unit;
  emojiList_onCloseModal : handler unit
}.

Record rendered : Type := mkRendered {
  effects : list event;
  tree : view
}.

Section Screen.

(** [require('@/assets/images/background-image.png')]: whatever the bundler
    hands out for the bundled background. *)
Variable ImageProvider : value.

Definition onReset : handler unit :=
  setShowAppOptions false ;;
  setImage ImageProvider ;;
  setPickedEmoji VUndefined.

(** One render of [Index]: the permission hook's current answer and the
    state cells go in, the render-time calls and the element tree come
    out. *)
Definition Index (permissionStatus : option PermissionResponse) (s : state)
  : rendered :=
  {| effects :=
       match permissionStatus with
       | None => [EvRequestPermission]
       | Some _ => []
       end;
     tree :=
       {| imageViewer_path :=
            if truthy (image s) then image s else ImageProvider;
          emojiSticker_source :=
            if truthy (pickedEmoji s) then Some (pickedEmoji s) else None;
          buttons :=
            if showAppOptions s then
              OptionsRow (fun _ => onReset) (fun _ => onAddSticker) onSaveImageAsync
            else
              Footer pickImageAsync (fun _ => useThisPhoto_onPress);
          emojiPicker_isVisible := showEmojiPickerModal s;
          emojiPicker_onClose := onEmojiModalClose;
          emojiList_onSelect := setPickedEmoji;
          emojiList_onCloseModal := onEmojiModalClose |} |}.

(** ** User interaction *)

Inductive action : Type :=
| PressChoosePhoto
| PressUseThisPhoto
| PressReset
| PressAddSticker
| PressSave
| CloseEmojiPicker
| SelectEmoji (item : value).

(** Modelled from the spec: [EmojiPicker] and [EmojiList] are components of
    this repository that are not among the sources; per the spec the picker
    is a dismissible modal and "selecting an entry sets the active Sticker
    Reference and closes the modal", so a selection runs [onSelect item]
    and then [onCloseModal], and a dismissal runs [onClose].  The other
    actions run the [onPress] of a button that the tree contains. *)
Definition dispatch (v : view) (a : action) : option press :=
  match a with
  | PressChoosePhoto =>
      match buttons v with Footer choose _ => Some choose | _ => None end
  | PressUseThisPhoto =>
      match buttons v with Footer _ use => Some use | _ => None end
  | PressReset =>
      match buttons v with OptionsRow reset _ _ => Some reset | _ => None end
  | PressAddSticker =>
      match buttons v with OptionsRow _ add _ => Some add | _ => None end
  | PressSave =>
      match buttons v with OptionsRow _ _ save => Some save | _ => None end
  | CloseEmojiPicker =>
      if emojiPicker_isVisible v
      then Some (fun _ => emojiPicker_onClose v)
      else None
  | SelectEmoji item =>
      if emojiPicker_isVisible v
      then Some (fun _ => emojiList_onSelect v item ;; emojiList_onCloseModal v)
      else None
  end.

(** One interaction: some control of the current tree is operated and its
    handler runs to completion against some answer of the platform. *)
Inductive step (s : state) : state -> Prop :=
| step_action (p : option PermissionResponse) (a : action) (h : press) (w : world) :
    dispatch (tree (Index p s)) a = Some h ->
    step s (after (h w s)).

Inductive reachable : state -> Prop :=
| reachable_initial : reachable initial_state
| reachable_step (s s' : state) : reachable s -> step s s' -> reachable s'.

End Screen.

(** ** Reading a trace *)

Definition is_write (ev : event) : bool :=
  match ev with
  | EvSaveToLibrary _ => true
  | _ => false
  end.

(** The media-library write calls of a trace, in order. *)
Definition writes (tr : list event) : list event := filter is_write tr.

Definition alert_shown (tr : list event) : Prop :=
  exists message, In (EvAlert message) tr.

(** The alert [message] appears later in the trace than the write of
    [localUri]. *)
Definition alert_after_write (localUri : value) (message : string)
  (tr : list event) : Prop :=
  exists before later,
    tr = before ++ EvSaveToLibrary localUri :: later /\
    In (EvAlert message) later.

Definition requests_permission (r : rendered) : Prop :=
  In EvRequestPermission (effects r).

(** The permission has not been granted: the hook has no answer yet, or
    its answer says so. *)
Definition not_yet_granted (p : option PermissionResponse) : bool :=
  match p with
  | None => true
  | Some response => negb (granted response)
  end.

(** The export fails: the capture throws, or the URI it returns is falsy. *)
Definition export_fails (w : world) : Prop :=
  (exists e, captureRef w = Throw e) \/
  (exists localUri, captureRef w = Normal localUri /\ truthy localUri = false).

(** A handler that leaves every state cell as it found it. *)
Definition preserves_state {A : Type} (h : handler A) : Prop :=
  forall s, after (h s) = s.

(** A handler out of which no exception escapes. *)
Definition contained {A : Type} (h : handler A) : Prop :=
  forall s, exists a, outcome (h s) = Normal a.

(** ** Concrete platforms and values used in the examples *)

Definition bundled_background : value := VNumber 1.

Definition shot_uri : value := VString "file:///cache/ReactNative-snapshot-image.png".

Definition photo : ImagePickerAsset := {| uri := "file:///cache/ImagePicker/photo.jpg" |}.

(** Every library call succeeds. *)
Definition world_ok : world :=
  {| launchImageLibraryAsync := Normal {| canceled := false; assets := Some [photo] |};
     captureRef := Normal shot_uri;
     saveToLibraryAsync := fun _ => Normal tt |}.

(** The user backs out of the picker; the capture rejects. *)
Definition world_cancel_and_capture_throws : world :=
  {| launchImageLibraryAsync := Normal {| canceled := true; assets := None |};
     captureRef := Throw (Rejection "Failed to snapshot view tag");
     saveToLibraryAsync := fun _ => Normal tt |}.

(** The capture succeeds, the media library refuses the write. *)
Definition world_write_throws : world :=
  {| launchImageLibraryAsync := Normal {| canceled := true; assets := None |};
     captureRef := Normal shot_uri;
     saveToLibraryAsync := fun _ => Throw (Rejection "Missing MEDIA_LIBRARY write permission") |}.

(** The capture returns an empty URI and the media library accepts it. *)
Definition world_empty_uri : world :=
  {| launchImageLibraryAsync := Normal {| canceled := true; assets := None |};
     captureRef := Normal (VString "");
     saveToLibraryAsync := fun _ => Normal tt |}.

(** The capture returns an empty URI and the media library refuses it. *)
Definition world_empty_uri_write_throws : world :=
  {| launchImageLibraryAsync := Normal {| canceled := true; assets := None |};
     captureRef := Normal (VString "");
     saveToLibraryAsync := fun _ => Throw (Rejection "Invalid argument: localUri") |}.

(** The hook has answered, and the permission is still undetermined. *)
Definition permission_undetermined : option PermissionResponse :=
  Some {| status := Undetermined; granted := false; canAskAgain := true |}.

(** ** More readers of a trace *)

Definition is_launch (ev : event) : bool :=
  match ev with
  | EvLaunchImageLibrary _ _ _ => true
  | _ => false
  end.

Definition is_capture (ev : event) : bool :=
  match ev with
  | EvCaptureRef _ _ => true
  | _ => false
  end.

(** What the user or the developer gets to see: an alert or a console
    line. *)
Definition is_report (ev : event) : bool :=
  match ev with
  | EvAlert _ => true
  | EvConsoleLog _ => true
  | _ => false
  end.

Definition launches (tr : list event) : list event := filter is_launch tr.

Definition captures (tr : list event) : list event := filter is_capture tr.

Definition reports (tr : list event) : list event := filter is_report tr.

(** ** [ImageViewer] ([src/components/ImageViewer.tsx]) *)

Record ImageStyle : Type := mkImageStyle {
  width : Z;
  height : Z;
  borderRadius : Z
}.

(** The [Image] element of expo-image, with the two props the component
    sets. *)
Record ImageElement : Type := mkImage {
  source : value;
  style : ImageStyle
}.

Definition styles_image : ImageStyle :=
  {| width := 320; height := 440; borderRadius := 18 |}.

Definition ImageViewer (path : value) : ImageElement :=
  {| source := path; style := styles_image |}.

(** [<ImageViewer path={image ? image : ImageProvider} />] inside the
    captured [View]: the image element the screen draws in state [s]. *)
Definition canvas_image (ImageProvider : value) (p : option PermissionResponse)
  (s : state) : ImageElement :=
  ImageViewer (imageViewer_path (tree (Index ImageProvider p s))).

(** ** The tab shell ([src/app/(tabs)/_layout.tsx]) *)

Module Layout.

(** [<Ionicons name=... color=... size=... />] *)
Record Ionicons : Type := mkIonicons {
  name : string;
  color : string;
  size : Z
}.

(** One [<Tabs.Screen name=... options={{...}} />]. *)
Record Screen : Type := mkScreen {
  screen_name : string;
  headerTitle : option string;
  title : option string;
  tabBarIcon : bool -> string -> Ionicons
}.

Definition index_screen : Screen :=
  {| screen_name := "index";
     headerTitle := Some "Home";
     title := None;
     tabBarIcon := fun focused color =>
       {| name := if focused then "home-sharp" else "home-outline";
          color := color;
          size := 24 |} |}.

Definition about_screen : Screen :=
  {| screen_name := "about";
     headerTitle := None;
     title := Some "About Us";
     tabBarIcon := fun focused color =>
       {| name := if focused
                  then "information-circle-sharp"
                  else "information-circle-outline";
          color := color;
          size := 24 |} |}.

(** The children of [<Tabs>], in order. *)
Definition TabsLayout : list Screen := [index_screen; about_screen].

End Layout.

(** ** Sessions *)

(** One turn of a session: what the permission hook reports at the render,
    the control the user then operates, and what the platform answers to
    the handler. *)
Definition turn : Type := (option PermissionResponse * action * world)%type.

(** A session from state [s]: at each turn the screen is rendered, the
    control is operated if the tree has it (otherwise nothing runs), and
    its handler runs to completion before the next turn.  The result is
    the last state and every platform call made, in order. *)
Fixpoint session (ImageProvider : value) (turns : list turn) (s : state)
  : state * list event :=
  match turns with
  | [] => (s, [])
  | (p, a, w) :: rest =>
      let r := Index ImageProvider p s in
      match dispatch (tree r) a with
      | Some h =>
          let run := h w s in
          let later := session ImageProvider rest (after run) in
          (fst later, effects r ++ trace run ++ snd later)
      | None =>
          let later := session ImageProvider rest s in
          (fst later, effects r ++ snd later)
      end
  end.

(** Every event of [tr] that is a [target] comes directly after an event
    that is a [before]; [ok] says whether the event in front of [tr] was
    one. *)
Fixpoint preceded (target before : event -> bool) (ok : bool) (tr : list event)
  : bool :=
  match tr with
  | [] => true
  | ev :: rest =>
      (negb (target ev) || ok) && preceded target before (before ev) rest
  end.

Definition is_success_alert (ev : event) : bool :=
  match ev with
  | EvAlert message => String.eqb message "Saved Succesfully!!!"
  | _ => false
  end.

(** ** More platforms and values used in the examples *)

(** The picker's promise rejects. *)
Definition world_picker_rejects : world :=
  {| launchImageLibraryAsync := Throw (Rejection "Missing camera roll permission");
     captureRef := Normal shot_uri;
     saveToLibraryAsync := fun _ => Normal tt |}.

(** The picker answers "not cancelled" with an empty asset array. *)
Definition world_no_asset : world :=
  {| launchImageLibraryAsync := Normal {| canceled := false; assets := Some [] |};
     captureRef := Normal shot_uri;
     saveToLibraryAsync := fun _ => Normal tt |}.

Definition sticker : value := VObject 7.

Definition editing_state : state :=
  {| image := VString (uri photo);
     showAppOptions := true;
     showEmojiPickerModal := false;
     pickedEmoji := sticker |}.

(** ** The monad's operations and the state *)

Create HintDb frame.

Lemma preserves_ret {A : Type} (a : A) : preserves_state (ret a).
Proof. intro s. reflexivity. Qed.

Lemma preserves_throw {A : Type} (e : error) : preserves_state (@throw A e).
Proof. intro s. reflexivity. Qed.

Lemma preserves_await {A : Type} (call : event) (settled : completion A) :
  preserves_state (await call settled).
Proof. intro s. reflexivity. Qed.

Lemma preserves_alert (message : string) : preserves_state (alert message).
Proof. intro s. reflexivity. Qed.

Lemma preserves_console_log (what : logged) : preserves_state (console_log what).
Proof. intro s. reflexivity. Qed.

Lemma preserves_bind {A B : Type} (m : handler A) (k : A -> handler B) :
  preserves_state m -> (forall a, preserves_state (k a)) ->
  preserves_state (bind m k).
Proof.
  intros Hm Hk s. unfold bind.
  destruct (outcome (m s)) as [a | e] eqn:Hout; cbn.
  - rewrite Hm. apply Hk.
  - apply Hm.
Qed.

Lemma preserves_try_catch {A : Type} (body : handler A) (recover : error -> handler A) :
  preserves_state body -> (forall e, preserves_state (recover e)) ->
  preserves_state (try_catch body recover).
Proof.
  intros Hb Hr s. unfold try_catch.
  destruct (outcome (body s)) as [a | e] eqn:Hout; cbn.
  - apply Hb.
  - rewrite Hb. apply Hr.
Qed.

Lemma preserves_if {A : Type} (b : bool) (h1 h2 : handler A) :
  preserves_state h1 -> preserves_state h2 ->
  preserves_state (if b then h1 else h2).
Proof. destruct b; trivial. Qed.

#[export] Hint Resolve preserves_ret preserves_throw preserves_await
  preserves_alert preserves_console_log preserves_bind preserves_try_catch
  preserves_if : frame.

Lemma contained_try_catch {A : Type} (body : handler A) (recover : error -> handler A) :
  (forall e, contained (recover e)) -> contained (try_catch body recover).
Proof.
  intros Hr s. unfold try_catch.
  destruct (outcome (body s)) as [a | e] eqn:Hout.
  - exists a. exact Hout.
  - cbn. apply Hr.
Qed.

(** ** What [onSaveImageAsync] does, case by case *)

Lemma onSaveImageAsync_preserves_state (w : world) :
  preserves_state (onSaveImageAsync w).
Proof. unfold onSaveImageAsync. auto 6 with frame. Qed.

Lemma onSaveImageAsync_contained (w : world) : contained (onSaveImageAsync w).
Proof.
  apply contained_try_catch. intros e s. exists tt. reflexivity.
Qed.

Lemma onSaveImageAsync_capture_throws (w : world) (s : state) (e : error) :
  captureRef w = Throw e ->
  trace (onSaveImageAsync w s) = [EvCaptureRef 700 1; EvConsoleLog (LogError e)].
Proof.
  intro Hc. unfold onSaveImageAsync, try_catch, bind, await. cbn.
  rewrite Hc. reflexivity.
Qed.

Lemma onSaveImageAsync_write_throws (w : world) (s : state) (localUri : value) (e : error) :
  captureRef w = Normal localUri ->
  saveToLibraryAsync w localUri = Throw e ->
  trace (onSaveImageAsync w s) =
    [EvCaptureRef 700 1; EvSaveToLibrary localUri; EvConsoleLog (LogError e)].
Proof.
  intros Hc Hw. unfold onSaveImageAsync, try_catch, bind, await. cbn.
  rewrite Hc. cbn. rewrite Hw. reflexivity.
Qed.

Lemma onSaveImageAsync_write_returns (w : world) (s : state) (localUri : value) :
  captureRef w = Normal localUri ->
  saveToLibraryAsync w localUri = Normal tt ->
  trace (onSaveImageAsync w s) =
    [EvCaptureRef 700 1; EvSaveToLibrary localUri;
     EvAlert (if truthy localUri then "Saved Succesfully!!!" else "Save Failed!! ):")].
Proof.
  intros Hc Hw. unfold onSaveImageAsync, try_catch, bind, await. cbn.
  rewrite Hc. cbn. rewrite Hw. cbn.
  destruct (truthy localUri); reflexivity.
Qed.

Lemma no_alert_in_log_only (pre : list event) (what : logged) :
  (forall message, ~ In (EvAlert message) pre) ->
  ~ alert_shown (pre ++ [EvConsoleLog what]).
Proof.
  intros Hpre [message Hin]. apply in_app_or in Hin as [Hin | Hin].
  - exact (Hpre message Hin).
  - destruct Hin as [Heq | []]. discriminate Heq.
Qed.

(** ** Export: [onSaveImageAsync] *)

(** C1, as amended.  When the capture call throws, the error is caught and
    logged to the console and no alert is shown; when the capture returns a
    falsy URI and the media-library write that follows returns without
    throwing, the failure alert is shown. *)
Theorem onSaveImageAsync_failure_reporting (w : world) (s : state) :
  (forall e, captureRef w = Throw e ->
     In (EvConsoleLog (LogError e)) (trace (onSaveImageAsync w s)) /\
     ~ alert_shown (trace (onSaveImageAsync w s))) /\
  (forall localUri,
     captureRef w = Normal localUri -> truthy localUri = false ->
     saveToLibraryAsync w localUri = Normal tt ->
     In (EvAlert "Save Failed!! ):") (trace (onSaveImageAsync w s))).
Proof.
  split.
  - intros e Hc. rewrite (onSaveImageAsync_capture_throws w s e Hc). split.
    + right. left. reflexivity.
    + apply (no_alert_in_log_only [EvCaptureRef 700 1]).
      intros message [Heq | []]. discriminate Heq.
  - intros localUri Hc Hfalsy Hw.
    rewrite (onSaveImageAsync_write_returns w s localUri Hc Hw), Hfalsy.
    cbn. tauto.
Qed.

(** C2, as amended.  When the capture returns a truthy URI, exactly one
    media-library write call is made and its argument is that URI; if the
    write returns without throwing, the success alert is shown after it; if
    the write throws, the error is logged and no alert is shown. *)
Theorem onSaveImageAsync_capture_succeeds (w : world) (s : state) (localUri : value) :
  captureRef w = Normal localUri ->
  truthy localUri = true ->
  writes (trace (onSaveImageAsync w s)) = [EvSaveToLibrary localUri] /\
  (saveToLibraryAsync w localUri = Normal tt ->
     alert_after_write localUri "Saved Succesfully!!!" (trace (onSaveImageAsync w s))) /\
  (forall e, saveToLibraryAsync w localUri = Throw e ->
     In (EvConsoleLog (LogError e)) (trace (onSaveImageAsync w s)) /\
     ~ alert_shown (trace (onSaveImageAsync w s))).
Proof.
  intros Hc Htruthy.
  destruct (saveToLibraryAsync w localUri) as [[] | e] eqn:Hw.
  - rewrite (onSaveImageAsync_write_returns w s localUri Hc Hw), Htruthy.
    split; [reflexivity | split].
    + intros _. exists [EvCaptureRef 700 1], [EvAlert "Saved Succesfully!!!"].
      split; [reflexivity | left; reflexivity].
    + intros e He. discriminate He.
  - rewrite (onSaveImageAsync_write_throws w s localUri e Hc Hw).
    split; [reflexivity | split].
    + intro Hret. discriminate Hret.
    + intros e' He'. injection He' as <-. split.
      * cbn. tauto.
      * apply (no_alert_in_log_only [EvCaptureRef 700 1; EvSaveToLibrary localUri]).
        intros message [Heq | [Heq | []]]; discriminate Heq.
Qed.

(** C3.  When the capture call raises an exception, the export makes no
    media-library write call. *)
Theorem onSaveImageAsync_capture_throws_no_write (w : world) (s : state) (e : error) :
  captureRef w = Throw e ->
  writes (trace (onSaveImageAsync w s)) = [] /\
  forall localUri, ~ In (EvSaveToLibrary localUri) (trace (onSaveImageAsync w s)).
Proof.
  intro Hc. rewrite (onSaveImageAsync_capture_throws w s e Hc). split.
  - reflexivity.
  - intros localUri [Heq | [Heq | []]]; discriminate Heq.
Qed.

(** C8.  When the capture call throws, the export leaves every state cell
    (background, sticker, both mode flags) as it was, and the exception
    does not leave the handler. *)
Theorem onSaveImageAsync_capture_throws_state_unchanged
  (w : world) (s : state) (e : error) :
  captureRef w = Throw e ->
  after (onSaveImageAsync w s) = s /\
  outcome (onSaveImageAsync w s) = Normal tt.
Proof.
  intro Hc. split.
  - apply onSaveImageAsync_preserves_state.
  - destruct (onSaveImageAsync_contained w s) as [[] Hout]. exact Hout.
Qed.

(** ** Picking a photo: [pickImageAsync] *)

Lemma pickImageAsync_cancelled (w : world) (s : state) (r : ImagePickerResult) :
  launchImageLibraryAsync w = Normal r ->
  canceled r = true ->
  pickImageAsync w s =
    mkResult (Normal tt) s
      [EvLaunchImageLibrary true ["images"] 1;
       EvAlert "You did not select an Image";
       EvConsoleLog (LogPickerResult r)].
Proof.
  intros Hl Hc. unfold pickImageAsync, bind, await. cbn.
  rewrite Hl. cbn. rewrite Hc. reflexivity.
Qed.

(** C5.  When the picker returns a cancelled result, the background
    ([image]) and the editing-mode flag ([showAppOptions]) are what they
    were before the pick, and an alert and a console log are produced. *)
Theorem pickImageAsync_cancel_frame (w : world) (s : state) (r : ImagePickerResult) :
  launchImageLibraryAsync w = Normal r ->
  canceled r = true ->
  image (after (pickImageAsync w s)) = image s /\
  showAppOptions (after (pickImageAsync w s)) = showAppOptions s /\
  In (EvAlert "You did not select an Image") (trace (pickImageAsync w s)) /\
  In (EvConsoleLog (LogPickerResult r)) (trace (pickImageAsync w s)).
Proof.
  intros Hl Hc. rewrite (pickImageAsync_cancelled w s r Hl Hc). cbn.
  repeat split; auto.
Qed.

(** C6.  When the picker returns a result that is not cancelled, the
    background becomes the URI of the picked asset ([result.assets[0]])
    and [showAppOptions] becomes true. *)
Theorem pickImageAsync_picked (w : world) (s : state) (r : ImagePickerResult)
  (picked : ImagePickerAsset) (others : list ImagePickerAsset) :
  launchImageLibraryAsync w = Normal r ->
  canceled r = false ->
  assets r = Some (picked :: others) ->
  image (after (pickImageAsync w s)) = VString (uri picked) /\
  showAppOptions (after (pickImageAsync w s)) = true.
Proof.
  intros Hl Hc Ha. unfold pickImageAsync, bind, await, first_asset_uri. cbn.
  rewrite Hl. cbn. rewrite Hc, Ha. cbn. split; reflexivity.
Qed.

(** Whatever the picker answers, [pickImageAsync] leaves the background
    undefined or unchanged, or sets it to a string. *)
Lemma pickImageAsync_image (w : world) (s : state) :
  image (after (pickImageAsync w s)) = image s \/
  exists picked, image (after (pickImageAsync w s)) = VString picked.
Proof.
  unfold pickImageAsync, bind, await, first_asset_uri. cbn.
  destruct (launchImageLibraryAsync w) as [r | e]; cbn; [| now left].
  destruct (canceled r); cbn; [now left |].
  destruct (assets r) as [[| a l] |]; cbn; try (now left).
  right. exists (uri a). reflexivity.
Qed.

(** ** The rendered screen *)

Section Rendering.

Variable ImageProvider : value.

(** The [ImageViewer] gets the state's image when that is truthy and the
    bundled background otherwise. *)
Lemma Index_path_cases (p : option PermissionResponse) (s : state) :
  (truthy (image s) = true /\
   imageViewer_path (tree (Index ImageProvider p s)) = image s) \/
  (truthy (image s) = false /\
   imageViewer_path (tree (Index ImageProvider p s)) = ImageProvider).
Proof.
  cbn. destruct (truthy (image s)); [left | right]; split; reflexivity.
Qed.

Lemma truthy_defined (v : value) : truthy v = true -> v <> VUndefined.
Proof. intros Ht ->. discriminate Ht. Qed.

(** C4, as amended.  A render requests the permission exactly when the
    permission hook reports [null] (no answer yet), not whenever the
    permission is not granted; the request is issued and nothing waits for
    it: the element tree, with every handler in it, is the same whatever
    the hook reports. *)
Theorem Index_permission_request (p : option PermissionResponse) (s : state) :
  (requests_permission (Index ImageProvider p s) <-> p = None) /\
  (forall p', tree (Index ImageProvider p' s) = tree (Index ImageProvider p s)).
Proof.
  split.
  - unfold requests_permission. destruct p as [response |]; cbn.
    + split; [intros [] | discriminate].
    + split; [reflexivity | intros _; left; reflexivity].
  - intro p'. reflexivity.
Qed.

(** C7.  From every state, after [onReset] the canvas shows the bundled
    default background, the sticker is cleared ([pickedEmoji] undefined,
    no sticker drawn) and [showAppOptions] is false. *)
Theorem onReset_restores_initial_screen (p : option PermissionResponse) (s : state) :
  imageViewer_path (tree (Index ImageProvider p (after (onReset ImageProvider s))))
    = ImageProvider /\
  pickedEmoji (after (onReset ImageProvider s)) = VUndefined /\
  emojiSticker_source (tree (Index ImageProvider p (after (onReset ImageProvider s))))
    = None /\
  showAppOptions (after (onReset ImageProvider s)) = false.
Proof.
  repeat split.
  destruct (Index_path_cases p (after (onReset ImageProvider s))) as [[_ ->] | [_ ->]];
    reflexivity.
Qed.

(** C9.  The "Use this photo" button, where it is rendered, sets
    [showAppOptions] to true and leaves background and sticker as they
    were, calling no library; pressed before any photo was picked
    ([image] undefined), the canvas in editing mode shows the bundled
    default background. *)
Theorem use_this_photo_enters_editing
  (p : option PermissionResponse) (s : state) (choose use : press) (w : world) :
  buttons (tree (Index ImageProvider p s)) = Footer choose use ->
  showAppOptions (after (use w s)) = true /\
  image (after (use w s)) = image s /\
  pickedEmoji (after (use w s)) = pickedEmoji s /\
  trace (use w s) = [] /\
  (image s = VUndefined ->
   imageViewer_path (tree (Index ImageProvider p (after (use w s)))) = ImageProvider).
Proof.
  cbn. destruct (showAppOptions s); intro Hb; [discriminate Hb |].
  injection Hb as _ <-. cbn. repeat split.
  intros ->. reflexivity.
Qed.

(** In every reachable state the background cell is undefined, the bundled
    background, or a string that came from the picker. *)
Lemma reachable_image (s : state) :
  reachable ImageProvider s ->
  image s = VUndefined \/ image s = ImageProvider \/ exists picked, image s = VString picked.
Proof.
  induction 1 as [| s s' _ IH Hstep].
  - left. reflexivity.
  - destruct Hstep as [p a h w Hd].
    destruct a; cbn in Hd.
    + destruct (showAppOptions s); [discriminate Hd |].
      injection Hd as <-.
      destruct (pickImageAsync_image w s) as [-> | Hpicked]; auto.
    + destruct (showAppOptions s); [discriminate Hd |].
      injection Hd as <-. exact IH.
    + destruct (showAppOptions s); [| discriminate Hd].
      injection Hd as <-. right. left. reflexivity.
    + destruct (showAppOptions s); [| discriminate Hd].
      injection Hd as <-. exact IH.
    + destruct (showAppOptions s); [| discriminate Hd].
      injection Hd as <-.
      rewrite (onSaveImageAsync_preserves_state w s). exact IH.
    + destruct (showEmojiPickerModal s); [| discriminate Hd].
      injection Hd as <-. exact IH.
    + destruct (showEmojiPickerModal s); [| discriminate Hd].
      injection Hd as <-. exact IH.
Qed.

(** C10.  With a bundled background that is defined, in every reachable
    state the canvas is rendered with a defined background source, and
    when the background cell is undefined that source is the bundled
    default. *)
Theorem Index_background_defined (p : option PermissionResponse) (s : state) :
  ImageProvider <> VUndefined ->
  reachable ImageProvider s ->
  imageViewer_path (tree (Index ImageProvider p s)) <> VUndefined /\
  (image s = VUndefined ->
   imageViewer_path (tree (Index ImageProvider p s)) = ImageProvider) /\
  (imageViewer_path (tree (Index ImageProvider p s)) = ImageProvider \/
   exists picked, imageViewer_path (tree (Index ImageProvider p s)) = VString picked).
Proof.
  intros Hdef Hreach.
  destruct (Index_path_cases p s) as [[Ht ->] | [Hf ->]].
  - split; [exact (truthy_defined _ Ht) | split].
    + intro Hu. rewrite Hu in Ht. discriminate Ht.
    + destruct (reachable_image s Hreach) as [Hu | [Hi | Hs]]; auto.
      rewrite Hu in Ht. discriminate Ht.
  - split; [exact Hdef | split]; auto.
Qed.

End Rendering.

(** ** The claims at concrete inputs *)

Lemma alert_after_write_shown (localUri : value) (message : string) (tr : list event) :
  alert_after_write localUri message tr -> alert_shown tr.
Proof.
  intros (before & later & -> & Hin). exists message.
  apply in_or_app. right. right. exact Hin.
Qed.

(** C1 as first stated fails: the capture rejects, or it returns an empty
    URI that the media library then refuses, and in both runs the export
    shows no alert at all. *)
Lemma export_failure_without_alert :
  export_fails world_cancel_and_capture_throws /\
  ~ alert_shown (trace (onSaveImageAsync world_cancel_and_capture_throws initial_state)) /\
  export_fails world_empty_uri_write_throws /\
  ~ alert_shown (trace (onSaveImageAsync world_empty_uri_write_throws initial_state)).
Proof.
  split; [| split; [| split]].
  - left. eexists. reflexivity.
  - intros [message [Heq | [Heq | []]]]; discriminate Heq.
  - right. exists (VString ""). split; reflexivity.
  - intros [message [Heq | [Heq | [Heq | []]]]]; discriminate Heq.
Qed.

Lemma onSaveImageAsync_failure_reporting_witness :
  (In (EvConsoleLog (LogError (Rejection "Failed to snapshot view tag")))
      (trace (onSaveImageAsync world_cancel_and_capture_throws initial_state)) /\
   ~ alert_shown (trace (onSaveImageAsync world_cancel_and_capture_throws initial_state))) /\
  In (EvAlert "Save Failed!! ):") (trace (onSaveImageAsync world_empty_uri initial_state)).
Proof.
  split.
  - apply (proj1 (onSaveImageAsync_failure_reporting
                    world_cancel_and_capture_throws initial_state)).
    reflexivity.
  - apply (proj2 (onSaveImageAsync_failure_reporting world_empty_uri initial_state)
             (VString "")); reflexivity.
Defined.

(** C2 as first stated fails: the capture returns a truthy URI, the one
    write call is made with it, the media library refuses the write, and
    no success alert (no alert at all) follows. *)
Lemma capture_succeeds_without_success_alert :
  captureRef world_write_throws = Normal shot_uri /\
  truthy shot_uri = true /\
  writes (trace (onSaveImageAsync world_write_throws initial_state))
    = [EvSaveToLibrary shot_uri] /\
  ~ alert_after_write shot_uri "Saved Succesfully!!!"
      (trace (onSaveImageAsync world_write_throws initial_state)).
Proof.
  repeat split.
  intro Hafter. apply alert_after_write_shown in Hafter.
  destruct Hafter as [message [Heq | [Heq | [Heq | []]]]]; discriminate Heq.
Qed.

Lemma onSaveImageAsync_capture_succeeds_witness :
  (writes (trace (onSaveImageAsync world_ok initial_state)) = [EvSaveToLibrary shot_uri] /\
   alert_after_write shot_uri "Saved Succesfully!!!"
     (trace (onSaveImageAsync world_ok initial_state))) /\
  ~ alert_shown (trace (onSaveImageAsync world_write_throws initial_state)).
Proof.
  split.
  - destruct (onSaveImageAsync_capture_succeeds world_ok initial_state shot_uri
                eq_refl eq_refl) as [Hone [Hshown _]].
    split; [exact Hone | exact (Hshown eq_refl)].
  - destruct (onSaveImageAsync_capture_succeeds world_write_throws initial_state shot_uri
                eq_refl eq_refl) as [_ [_ Hthrows]].
    exact (proj2 (Hthrows _ eq_refl)).
Defined.

Lemma onSaveImageAsync_capture_throws_no_write_witness :
  captureRef world_cancel_and_capture_throws = Throw (Rejection "Failed to snapshot view tag") /\
  writes (trace (onSaveImageAsync world_cancel_and_capture_throws initial_state)) = [].
Proof.
  split; [reflexivity |].
  exact (proj1 (onSaveImageAsync_capture_throws_no_write
                  world_cancel_and_capture_throws initial_state _ eq_refl)).
Defined.

Lemma onSaveImageAsync_capture_throws_state_unchanged_witness :
  after (onSaveImageAsync world_cancel_and_capture_throws
           (after (pickImageAsync world_ok initial_state)))
    = after (pickImageAsync world_ok initial_state) /\
  outcome (onSaveImageAsync world_cancel_and_capture_throws
             (after (pickImageAsync world_ok initial_state)))
    = Normal tt.
Proof.
  exact (onSaveImageAsync_capture_throws_state_unchanged
           world_cancel_and_capture_throws
           (after (pickImageAsync world_ok initial_state)) _ eq_refl).
Defined.

(** C4 as first stated fails: the hook reports that the permission is
    still undetermined (so not granted), and the render requests
    nothing. *)
Lemma undetermined_permission_not_requested :
  not_yet_granted permission_undetermined = true /\
  ~ requests_permission (Index bundled_background permission_undetermined initial_state).
Proof.
  split; [reflexivity |]. intros [].
Qed.

Lemma Index_permission_request_witness :
  requests_permission (Index bundled_background None initial_state) /\
  tree (Index bundled_background permission_undetermined initial_state)
    = tree (Index bundled_background None initial_state).
Proof.
  destruct (Index_permission_request bundled_background None initial_state)
    as [[_ Hreq] Hsame].
  split; [exact (Hreq eq_refl) | exact (Hsame permission_undetermined)].
Defined.

Lemma pickImageAsync_cancel_frame_witness :
  image (after (pickImageAsync world_cancel_and_capture_throws
                  (after (onReset bundled_background
                            (after (pickImageAsync world_ok initial_state))))))
    = bundled_background /\
  showAppOptions (after (pickImageAsync world_cancel_and_capture_throws
                           (after (onReset bundled_background
                                     (after (pickImageAsync world_ok initial_state))))))
    = false.
Proof.
  destruct (pickImageAsync_cancel_frame world_cancel_and_capture_throws
              (after (onReset bundled_background
                        (after (pickImageAsync world_ok initial_state))))
              _ eq_refl eq_refl) as [Himage [Hflag _]].
  split; [exact Himage | exact Hflag].
Defined.

Lemma pickImageAsync_picked_witness :
  image (after (pickImageAsync world_ok initial_state)) = VString (uri photo) /\
  showAppOptions (after (pickImageAsync world_ok initial_state)) = true.
Proof.
  exact (pickImageAsync_picked world_ok initial_state _ photo [] eq_refl eq_refl eq_refl).
Defined.

Lemma use_this_photo_enters_editing_witness :
  showAppOptions (after (useThisPhoto_onPress initial_state)) = true /\
  imageViewer_path
    (tree (Index bundled_background None (after (useThisPhoto_onPress initial_state))))
    = bundled_background.
Proof.
  destruct (use_this_photo_enters_editing bundled_background None initial_state
              pickImageAsync (fun _ => useThisPhoto_onPress) world_ok eq_refl)
    as [Hmode [_ [_ [_ Hbackground]]]].
  split; [exact Hmode | exact (Hbackground eq_refl)].
Defined.

Lemma reachable_after_pick :
  reachable bundled_background (after (pickImageAsync world_ok initial_state)).
Proof.
  apply (reachable_step bundled_background initial_state).
  - apply reachable_initial.
  - exact (step_action bundled_background initial_state None PressChoosePhoto
             pickImageAsync world_ok eq_refl).
Qed.

Lemma Index_background_defined_witness :
  imageViewer_path
    (tree (Index bundled_background None (after (pickImageAsync world_ok initial_state))))
    <> VUndefined /\
  imageViewer_path (tree (Index bundled_background None initial_state))
    = bundled_background.
Proof.
  split.
  - apply (Index_background_defined bundled_background None
             (after (pickImageAsync world_ok initial_state))).
    + discriminate.
    + exact reachable_after_pick.
  - apply (Index_background_defined bundled_background None initial_state).
    + discriminate.
    + apply reachable_initial.
    + reflexivity.
Defined.

(** ** More on the export *)

(** The three runs an export can take. *)
Lemma onSaveImageAsync_trace_cases (w : world) (s : state) :
  (exists e,
     captureRef w = Throw e /\
     trace (onSaveImageAsync w s) = [EvCaptureRef 700 1; EvConsoleLog (LogError e)]) \/
  (exists localUri e,
     captureRef w = Normal localUri /\
     saveToLibraryAsync w localUri = Throw e /\
     trace (onSaveImageAsync w s) =
       [EvCaptureRef 700 1; EvSaveToLibrary localUri; EvConsoleLog (LogError e)]) \/
  (exists localUri,
     captureRef w = Normal localUri /\
     saveToLibraryAsync w localUri = Normal tt /\
     trace (onSaveImageAsync w s) =
       [EvCaptureRef 700 1; EvSaveToLibrary localUri;
        EvAlert (if truthy localUri then "Saved Succesfully!!!" else "Save Failed!! ):")]).
Proof.
  destruct (captureRef w) as [localUri | e] eqn:Hc.
  - destruct (saveToLibraryAsync w localUri) as [[] | e] eqn:Hw.
    + right. right. exists localUri. rewrite Hw.
      auto using onSaveImageAsync_write_returns.
    + right. left. exists localUri, e. rewrite Hw.
      auto using onSaveImageAsync_write_throws.
  - left. exists e. auto using onSaveImageAsync_capture_throws.
Qed.

(** X1.  Whatever the platform answers, the export changes no state cell
    and lets no exception escape: both awaited calls sit inside the
    [try]. *)
Theorem onSaveImageAsync_always_contained (w : world) (s : state) :
  after (onSaveImageAsync w s) = s /\
  outcome (onSaveImageAsync w s) = Normal tt.
Proof.
  split.
  - apply onSaveImageAsync_preserves_state.
  - destruct (onSaveImageAsync_contained w s) as [[] Hout]. exact Hout.
Qed.

(** X2.  The export writes to the media library exactly when the capture
    returns, once, and with whatever the capture returned, truthy or not:
    the test of [localUri] comes after the write. *)
Theorem onSaveImageAsync_writes_what_capture_returns (w : world) (s : state) :
  writes (trace (onSaveImageAsync w s)) =
    match captureRef w with
    | Normal localUri => [EvSaveToLibrary localUri]
    | Throw _ => []
    end.
Proof.
  destruct (onSaveImageAsync_trace_cases w s)
    as [(e & -> & ->) | [(u & e & -> & _ & ->) | (u & -> & _ & ->)]];
    reflexivity.
Qed.

(** X3.  The success alert is shown exactly when the capture returns a
    truthy URI and the write returns; the failure alert exactly when the
    capture returns a falsy URI and the write returns; the export shows
    no other alert. *)
Theorem onSaveImageAsync_alerts (w : world) (s : state) :
  (In (EvAlert "Saved Succesfully!!!") (trace (onSaveImageAsync w s)) <->
   exists localUri,
     captureRef w = Normal localUri /\ truthy localUri = true /\
     saveToLibraryAsync w localUri = Normal tt) /\
  (In (EvAlert "Save Failed!! ):") (trace (onSaveImageAsync w s)) <->
   exists localUri,
     captureRef w = Normal localUri /\ truthy localUri = false /\
     saveToLibraryAsync w localUri = Normal tt) /\
  (forall message,
     In (EvAlert message) (trace (onSaveImageAsync w s)) ->
     message = "Saved Succesfully!!!" \/ message = "Save Failed!! ):").
Proof.
  destruct (onSaveImageAsync_trace_cases w s)
    as [(e & Hc & ->) | [(u & e & Hc & Hw & ->) | (u & Hc & Hw & ->)]].
  - split; [split | split; [split |]].
    + intros [Heq | [Heq | []]]; discriminate Heq.
    + intros (u & Hu & _). congruence.
    + intros [Heq | [Heq | []]]; discriminate Heq.
    + intros (u & Hu & _). congruence.
    + intros message [Heq | [Heq | []]]; discriminate Heq.
  - split; [split | split; [split |]].
    + intros [Heq | [Heq | [Heq | []]]]; discriminate Heq.
    + intros (u' & Hu & _ & Hw'). congruence.
    + intros [Heq | [Heq | [Heq | []]]]; discriminate Heq.
    + intros (u' & Hu & _ & Hw'). congruence.
    + intros message [Heq | [Heq | [Heq | []]]]; discriminate Heq.
  - destruct (truthy u) eqn:Ht; (split; [split | split; [split |]]).
    + intros _. exists u. auto.
    + intros _. right. right. left. reflexivity.
    + intros [Heq | [Heq | [Heq | []]]]; discriminate Heq.
    + intros (u' & Hu & Hf & _). congruence.
    + intros message [Heq | [Heq | [Heq | []]]]; try discriminate Heq.
      injection Heq as <-. left. reflexivity.
    + intros [Heq | [Heq | [Heq | []]]]; discriminate Heq.
    + intros (u' & Hu & Hf & _). congruence.
    + intros _. exists u. auto.
    + intros _. right. right. left. reflexivity.
    + intros message [Heq | [Heq | [Heq | []]]]; try discriminate Heq.
      injection Heq as <-. right. reflexivity.
Qed.

(** X4.  Every export begins with the capture call, at height 700 and
    quality 1, makes no second one, and reports exactly once: one alert or
    one console line, never both and never neither. *)
Theorem onSaveImageAsync_one_capture_one_report (w : world) (s : state) :
  hd_error (trace (onSaveImageAsync w s)) = Some (EvCaptureRef 700 1) /\
  captures (trace (onSaveImageAsync w s)) = [EvCaptureRef 700 1] /\
  length (reports (trace (onSaveImageAsync w s))) = 1%nat.
Proof.
  destruct (onSaveImageAsync_trace_cases w s)
    as [(e & _ & ->) | [(u & e & _ & _ & ->) | (u & _ & _ & ->)]];
    (split; [| split]); reflexivity.
Qed.

(** X5.  The export logs an error to the console exactly when the capture
    or the write threw it; a failed export leaves no other console
    line. *)
Theorem onSaveImageAsync_logs_what_was_thrown (w : world) (s : state) (e : error) :
  In (EvConsoleLog (LogError e)) (trace (onSaveImageAsync w s)) <->
  captureRef w = Throw e \/
  exists localUri, captureRef w = Normal localUri /\ saveToLibraryAsync w localUri = Throw e.
Proof.
  destruct (onSaveImageAsync_trace_cases w s)
    as [(e' & Hc & ->) | [(u & e' & Hc & Hw & ->) | (u & Hc & Hw & ->)]]; split.
  - intros [Heq | [Heq | []]]; [discriminate Heq |].
    injection Heq as <-. left. exact Hc.
  - intros [He | (u & Hu & _)]; [| congruence].
    assert (e' = e) as -> by congruence. right. left. reflexivity.
  - intros [Heq | [Heq | [Heq | []]]]; try discriminate Heq.
    injection Heq as <-. right. exists u. auto.
  - intros [He | (u' & Hu & Hw')]; [congruence |].
    assert (u' = u) as -> by congruence.
    assert (e' = e) as -> by congruence.
    right. right. left. reflexivity.
  - intros [Heq | [Heq | [Heq | []]]]; discriminate Heq.
  - intros [He | (u' & Hu & Hw')]; [congruence |].
    assert (u' = u) as -> by congruence. congruence.
Qed.

(** ** More on picking a photo *)

(** The four runs a pick can take, with the whole result of each. *)
Lemma pickImageAsync_cases (w : world) (s : state) :
  (exists e,
     launchImageLibraryAsync w = Throw e /\
     pickImageAsync w s =
       mkResult (Throw e) s [EvLaunchImageLibrary true ["images"] 1]) \/
  (exists r,
     launchImageLibraryAsync w = Normal r /\ canceled r = true /\
     pickImageAsync w s =
       mkResult (Normal tt) s
         [EvLaunchImageLibrary true ["images"] 1;
          EvAlert "You did not select an Image";
          EvConsoleLog (LogPickerResult r)]) \/
  (exists r message,
     launchImageLibraryAsync w = Normal r /\ canceled r = false /\
     (assets r = None \/ assets r = Some []) /\
     pickImageAsync w s =
       mkResult (Throw (TypeError message)) s
         [EvLaunchImageLibrary true ["images"] 1]) \/
  (exists r picked others,
     launchImageLibraryAsync w = Normal r /\ canceled r = false /\
     assets r = Some (picked :: others) /\
     pickImageAsync w s =
       mkResult (Normal tt)
         {| image := VString (uri picked);
            showAppOptions := true;
            showEmojiPickerModal := showEmojiPickerModal s;
            pickedEmoji := pickedEmoji s |}
         [EvLaunchImageLibrary true ["images"] 1]).
Proof.
  unfold pickImageAsync, bind, await, first_asset_uri. cbn.
  destruct (launchImageLibraryAsync w) as [r | e]; cbn.
  - destruct (canceled r) eqn:Hc; cbn.
    + right. left. exists r. auto.
    + destruct (assets r) as [[| picked others] |] eqn:Ha; cbn.
      * right. right. left. eexists r, _. auto.
      * right. right. right. exists r, picked, others. auto.
      * right. right. left. eexists r, _. auto.
  - left. exists e. auto.
Qed.

(** X6.  [pickImageAsync] has no [try]: when the picker's promise rejects,
    the rejection leaves the handler, no alert or console line is
    produced and the state is as before. *)
Theorem pickImageAsync_rejection_escapes (w : world) (s : state) (e : error) :
  launchImageLibraryAsync w = Throw e ->
  outcome (pickImageAsync w s) = Throw e /\
  after (pickImageAsync w s) = s /\
  reports (trace (pickImageAsync w s)) = [].
Proof.
  intro Hl.
  destruct (pickImageAsync_cases w s)
    as [(e' & Hl' & ->) | [(r & Hl' & _) | [(r & m & Hl' & _) | (r & a & l & Hl' & _)]]];
    try congruence.
  cbn. repeat split. congruence.
Qed.

(** X7.  A result that is not cancelled but brings no first asset
    ([assets] null or empty) makes [result.assets[0].uri] throw a
    TypeError that leaves the handler; neither setter has run, so the
    background and the mode flag are untouched, and the user is told
    nothing. *)
Theorem pickImageAsync_no_asset_throws (w : world) (s : state) (r : ImagePickerResult) :
  launchImageLibraryAsync w = Normal r ->
  canceled r = false ->
  assets r = None \/ assets r = Some [] ->
  (exists message, outcome (pickImageAsync w s) = Throw (TypeError message)) /\
  after (pickImageAsync w s) = s /\
  reports (trace (pickImageAsync w s)) = [].
Proof.
  intros Hl Hc Ha.
  destruct (pickImageAsync_cases w s)
    as [(e' & Hl' & _) | [(r' & Hl' & Hc' & _)
       | [(r' & m & Hl' & _ & _ & ->) | (r' & a & l & Hl' & _ & Ha' & _)]]].
  - congruence.
  - congruence.
  - cbn. split; [exists m; reflexivity | split; reflexivity].
  - assert (r' = r) as -> by congruence.
    destruct Ha as [Ha | Ha]; congruence.
Qed.

(** X8.  Whatever the picker answers, a pick opens the picker exactly
    once, first, with editing allowed, media type images and quality 1,
    and makes no capture and no media-library write. *)
Theorem pickImageAsync_one_launch (w : world) (s : state) :
  hd_error (trace (pickImageAsync w s))
    = Some (EvLaunchImageLibrary true ["images"] 1) /\
  launches (trace (pickImageAsync w s)) = [EvLaunchImageLibrary true ["images"] 1] /\
  captures (trace (pickImageAsync w s)) = [] /\
  writes (trace (pickImageAsync w s)) = [].
Proof.
  destruct (pickImageAsync_cases w s)
    as [(e' & _ & ->) | [(r & _ & _ & ->)
       | [(r & m & _ & _ & _ & ->) | (r & a & l & _ & _ & _ & ->)]]];
    cbn; auto.
Qed.

(** X9.  A pick is all or nothing: either the state is exactly as before,
    or the handler completed normally with a string in the background
    cell and the mode flag set, both together; the sticker and the
    picker-modal flag are never touched. *)
Theorem pickImageAsync_all_or_nothing (w : world) (s : state) :
  pickedEmoji (after (pickImageAsync w s)) = pickedEmoji s /\
  showEmojiPickerModal (after (pickImageAsync w s)) = showEmojiPickerModal s /\
  (after (pickImageAsync w s) = s \/
   exists picked,
     image (after (pickImageAsync w s)) = VString picked /\
     showAppOptions (after (pickImageAsync w s)) = true /\
     outcome (pickImageAsync w s) = Normal tt).
Proof.
  destruct (pickImageAsync_cases w s)
    as [(e' & _ & ->) | [(r & _ & _ & ->)
       | [(r & m & _ & _ & _ & ->) | (r & a & l & _ & _ & _ & ->)]]];
    cbn; (split; [reflexivity | split; [reflexivity |]]); auto.
  right. exists (uri a). auto.
Qed.

(** X10.  After a pick that brought an asset, the screen is in editing
    mode and the image element drawn by [ImageViewer] has the picked URI
    as its source when that URI is not the empty string; an empty URI is
    falsy, so the bundled background is drawn instead.  The element's
    size does not depend on the source. *)
Theorem picked_photo_is_drawn (ImageProvider : value) (p : option PermissionResponse)
  (w : world) (s : state) (r : ImagePickerResult)
  (picked : ImagePickerAsset) (others : list ImagePickerAsset) :
  launchImageLibraryAsync w = Normal r ->
  canceled r = false ->
  assets r = Some (picked :: others) ->
  (uri picked <> "" ->
   source (canvas_image ImageProvider p (after (pickImageAsync w s)))
     = VString (uri picked)) /\
  (uri picked = "" ->
   source (canvas_image ImageProvider p (after (pickImageAsync w s)))
     = ImageProvider) /\
  style (canvas_image ImageProvider p (after (pickImageAsync w s))) = styles_image /\
  buttons (tree (Index ImageProvider p (after (pickImageAsync w s))))
    = OptionsRow (fun _ => onReset ImageProvider) (fun _ => onAddSticker) onSaveImageAsync.
Proof.
  intros Hl Hc Ha.
  destruct (pickImageAsync_cases w s)
    as [(e' & Hl' & _) | [(r' & Hl' & Hc' & _)
       | [(r' & m & Hl' & _ & Ha' & _) | (r' & a & l & Hl' & _ & Ha' & ->)]]];
    try congruence.
  - assert (r' = r) as -> by congruence. destruct Ha' as [Ha' | Ha']; congruence.
  - assert (r' = r) as -> by congruence.
    assert (a = picked) as -> by congruence.
    cbn. destruct (uri picked) as [| c rest]; cbn.
    + split; [intro Hne; destruct (Hne eq_refl) | auto].
    + split; [reflexivity | split; [discriminate | auto]].
Qed.

(** ** More on the rendered screen *)

Section Session.

Variable ImageProvider : value.

(** Which handler an action runs, and in which mode the tree offers it. *)
Lemma dispatch_cases (p : option PermissionResponse) (s : state) (a : action) (h : press) :
  dispatch (tree (Index ImageProvider p s)) a = Some h ->
  (a = PressChoosePhoto /\ showAppOptions s = false /\ h = pickImageAsync) \/
  (a = PressUseThisPhoto /\ showAppOptions s = false /\
   h = (fun _ => useThisPhoto_onPress)) \/
  (a = PressReset /\ showAppOptions s = true /\ h = (fun _ => onReset ImageProvider)) \/
  (a = PressAddSticker /\ showAppOptions s = true /\ h = (fun _ => onAddSticker)) \/
  (a = PressSave /\ showAppOptions s = true /\ h = onSaveImageAsync) \/
  (a = CloseEmojiPicker /\ showEmojiPickerModal s = true /\
   h = (fun _ => onEmojiModalClose)) \/
  (exists item,
     a = SelectEmoji item /\ showEmojiPickerModal s = true /\
     h = (fun _ => setPickedEmoji item ;; onEmojiModalClose)).
Proof.
  intro Hd. destruct a; cbn in Hd.
  - destruct (showAppOptions s); [discriminate Hd |]. injection Hd as <-. tauto.
  - destruct (showAppOptions s); [discriminate Hd |]. injection Hd as <-. tauto.
  - destruct (showAppOptions s); [| discriminate Hd]. injection Hd as <-. tauto.
  - destruct (showAppOptions s); [| discriminate Hd]. injection Hd as <-. tauto.
  - destruct (showAppOptions s); [| discriminate Hd]. injection Hd as <-. tauto.
  - destruct (showEmojiPickerModal s); [| discriminate Hd]. injection Hd as <-. tauto.
  - destruct (showEmojiPickerModal s); [| discriminate Hd]. injection Hd as <-.
    do 6 right. exists item. auto.
Qed.

(** X11.  With the sticker picker closed, the screen rendered after
    [onReset] is the screen of a fresh mount: same background, no
    sticker, the two footer buttons, whatever the state was before. *)
Theorem onReset_renders_initial_screen (p : option PermissionResponse) (s : state) :
  showEmojiPickerModal s = false ->
  tree (Index ImageProvider p (after (onReset ImageProvider s)))
    = tree (Index ImageProvider p initial_state).
Proof.
  intro Hclosed. cbn. rewrite Hclosed.
  destruct (truthy ImageProvider); reflexivity.
Qed.

(** X12.  [onReset] calls no library and does not put the state cells
    back to their initial values: the background cell holds the bundled
    asset, not undefined, and the picker-modal flag keeps its value; the
    state equals the initial one only if the bundled asset is itself
    undefined and the modal was closed. *)
Theorem onReset_state (s : state) :
  trace (onReset ImageProvider s) = [] /\
  image (after (onReset ImageProvider s)) = ImageProvider /\
  showEmojiPickerModal (after (onReset ImageProvider s)) = showEmojiPickerModal s /\
  (after (onReset ImageProvider s) = initial_state <->
   ImageProvider = VUndefined /\ showEmojiPickerModal s = false).
Proof.
  split; [reflexivity | split; [reflexivity | split; [reflexivity |]]].
  cbn. unfold initial_state. split.
  - intro Heq. injection Heq as Himage Hmodal. auto.
  - intros [-> ->]. reflexivity.
Qed.

(** X13.  Opening the sticker picker shows the modal and changes nothing
    else on the screen; dismissing it through the [onClose] the tree
    hands to [EmojiPicker], without choosing, gives back the state the
    picker was opened from. *)
Theorem sticker_picker_open_close (p : option PermissionResponse) (s : state) :
  showEmojiPickerModal s = false ->
  emojiPicker_isVisible (tree (Index ImageProvider p (after (onAddSticker s)))) = true /\
  imageViewer_path (tree (Index ImageProvider p (after (onAddSticker s))))
    = imageViewer_path (tree (Index ImageProvider p s)) /\
  emojiSticker_source (tree (Index ImageProvider p (after (onAddSticker s))))
    = emojiSticker_source (tree (Index ImageProvider p s)) /\
  buttons (tree (Index ImageProvider p (after (onAddSticker s))))
    = buttons (tree (Index ImageProvider p s)) /\
  after (emojiPicker_onClose (tree (Index ImageProvider p (after (onAddSticker s))))
           (after (onAddSticker s)))
    = s.
Proof.
  intro Hclosed. destruct s as [img opts modal emoji]. cbn in *.
  subst modal. repeat split.
Qed.

(** X14.  Through the [onSelect] the tree hands to [EmojiList], a chosen
    item replaces whatever sticker was active: afterwards the canvas
    draws that item as the one sticker when it is truthy and no sticker
    when it is falsy; background, mode and the modal flag stay (closing
    the modal is the separate [onCloseModal]). *)
Theorem emojiList_onSelect_sets_the_sticker
  (p : option PermissionResponse) (s : state) (item : value) :
  emojiSticker_source
    (tree (Index ImageProvider p
             (after (emojiList_onSelect (tree (Index ImageProvider p s)) item s))))
    = (if truthy item then Some item else None) /\
  image (after (emojiList_onSelect (tree (Index ImageProvider p s)) item s)) = image s /\
  showAppOptions (after (emojiList_onSelect (tree (Index ImageProvider p s)) item s))
    = showAppOptions s /\
  showEmojiPickerModal (after (emojiList_onSelect (tree (Index ImageProvider p s)) item s))
    = showEmojiPickerModal s.
Proof.
  cbn. repeat split.
Qed.

(** X15.  Of all the controls the screen offers, only the Save button
    captures the canvas or writes to the media library, and the tree
    offers it only in editing mode. *)
Theorem only_save_captures_and_writes
  (p : option PermissionResponse) (s : state) (a : action) (h : press) (w : world) :
  dispatch (tree (Index ImageProvider p s)) a = Some h ->
  captures (trace (h w s)) <> [] \/ writes (trace (h w s)) <> [] ->
  a = PressSave /\ showAppOptions s = true.
Proof.
  intros Hd Hcalls.
  destruct (dispatch_cases p s a h Hd)
    as [(-> & _ & ->) | [(-> & _ & ->) | [(-> & _ & ->) | [(-> & _ & ->)
       | [(-> & Hmode & ->) | [(-> & _ & ->) | (item & -> & _ & ->)]]]]]];
    try (split; [reflexivity | exact Hmode]);
    try (cbn in Hcalls; destruct Hcalls as [Hne | Hne]; destruct (Hne eq_refl)).
  destruct (pickImageAsync_cases w s)
    as [(e' & _ & Heq) | [(r & _ & _ & Heq)
       | [(r & m & _ & _ & _ & Heq) | (r & picked & l & _ & _ & _ & Heq)]]];
    rewrite Heq in Hcalls; cbn in Hcalls;
    destruct Hcalls as [Hne | Hne]; destruct (Hne eq_refl).
Qed.

(** X16.  Only the "Choose a photo" button opens the photo picker, and
    the tree offers it only outside editing mode. *)
Theorem only_choose_photo_launches_picker
  (p : option PermissionResponse) (s : state) (a : action) (h : press) (w : world) :
  dispatch (tree (Index ImageProvider p s)) a = Some h ->
  launches (trace (h w s)) <> [] ->
  a = PressChoosePhoto /\ showAppOptions s = false.
Proof.
  intros Hd Hcalls.
  destruct (dispatch_cases p s a h Hd)
    as [(-> & Hmode & ->) | [(-> & _ & ->) | [(-> & _ & ->) | [(-> & _ & ->)
       | [(-> & _ & ->) | [(-> & _ & ->) | (item & -> & _ & ->)]]]]]];
    try (split; [reflexivity | exact Hmode]);
    try (cbn in Hcalls; destruct (Hcalls eq_refl)).
  destruct (onSaveImageAsync_trace_cases w s)
    as [(e & _ & Heq) | [(u & e & _ & _ & Heq) | (u & _ & _ & Heq)]];
    rewrite Heq in Hcalls; destruct (Hcalls eq_refl).
Qed.

(** X17.  The only control whose handler can end in an exception (an
    unhandled rejection) is "Choose a photo"; every other handler the tree
    offers completes normally whatever the platform answers. *)
Theorem only_choose_photo_can_throw
  (p : option PermissionResponse) (s : state) (a : action) (h : press) (w : world) :
  dispatch (tree (Index ImageProvider p s)) a = Some h ->
  a <> PressChoosePhoto ->
  outcome (h w s) = Normal tt.
Proof.
  intros Hd Hother.
  destruct (dispatch_cases p s a h Hd)
    as [(-> & _ & ->) | [(-> & _ & ->) | [(-> & _ & ->) | [(-> & _ & ->)
       | [(-> & _ & ->) | [(-> & _ & ->) | (item & -> & _ & ->)]]]]]];
    try reflexivity.
  - destruct (Hother eq_refl).
  - destruct (onSaveImageAsync_contained w s) as [[] Hout]. exact Hout.
Qed.

End Session.

(** ** The tab shell *)

(** X18.  Among the declared tabs, the glyph of a tab's icon tells which
    tab it is and whether it has the focus: no two pairs of tab and focus
    state share a glyph name.  The icon takes the colour it is given and
    has size 24. *)
Theorem tab_icon_identifies_tab_and_focus
  (t1 t2 : Layout.Screen) (focused1 focused2 : bool) (color1 color2 : string) :
  In t1 Layout.TabsLayout ->
  In t2 Layout.TabsLayout ->
  Layout.name (Layout.tabBarIcon t1 focused1 color1)
    = Layout.name (Layout.tabBarIcon t2 focused2 color2) ->
  (Layout.screen_name t1 = Layout.screen_name t2 /\ focused1 = focused2) /\
  Layout.color (Layout.tabBarIcon t1 focused1 color1) = color1 /\
  Layout.size (Layout.tabBarIcon t1 focused1 color1) = 24%Z.
Proof.
  intros [<- | [<- | []]] [<- | [<- | []]] Hname;
    destruct focused1, focused2; cbn in Hname;
    try discriminate Hname; repeat split.
Qed.

(** ** Whole sessions *)

Lemma preceded_weaken (target before : event -> bool) (ok : bool) (tr : list event) :
  preceded target before false tr = true ->
  preceded target before ok tr = true.
Proof.
  destruct tr as [| ev rest]; [reflexivity |]. cbn.
  intro H. apply andb_true_iff in H as [Hev Hrest].
  apply andb_true_iff. split; [| exact Hrest].
  rewrite orb_false_r in Hev. rewrite Hev. reflexivity.
Qed.

Lemma preceded_app (target before : event -> bool) (tr1 tr2 : list event) :
  forall ok,
    preceded target before ok tr1 = true ->
    preceded target before false tr2 = true ->
    preceded target before ok (tr1 ++ tr2) = true.
Proof.
  induction tr1 as [| ev rest IH]; intros ok H1 H2.
  - apply preceded_weaken. exact H2.
  - cbn in *. apply andb_true_iff in H1 as [Hev Hrest].
    apply andb_true_iff. split; [exact Hev |].
    apply IH; assumption.
Qed.

(** Within one handler run, a write comes directly after the capture and
    the success alert directly after the write. *)
Lemma handler_trace_ordered (ImageProvider : value) (p : option PermissionResponse)
  (s : state) (a : action) (h : press) (w : world) :
  dispatch (tree (Index ImageProvider p s)) a = Some h ->
  preceded is_write is_capture false (trace (h w s)) = true /\
  preceded is_success_alert is_write false (trace (h w s)) = true.
Proof.
  intro Hd.
  destruct (dispatch_cases ImageProvider p s a h Hd)
    as [(-> & _ & ->) | [(-> & _ & ->) | [(-> & _ & ->) | [(-> & _ & ->)
       | [(-> & _ & ->) | [(-> & _ & ->) | (item & -> & _ & ->)]]]]]];
    try (split; reflexivity).
  - destruct (pickImageAsync_cases w s)
      as [(e' & _ & ->) | [(r & _ & _ & ->)
         | [(r & m & _ & _ & _ & ->) | (r & picked & l & _ & _ & _ & ->)]]];
      split; reflexivity.
  - destruct (onSaveImageAsync_trace_cases w s)
      as [(e & _ & ->) | [(u & e & _ & _ & ->) | (u & _ & _ & ->)]];
      try (split; reflexivity).
    destruct (truthy u); split; reflexivity.
Qed.

Lemma render_effects_ordered (ImageProvider : value) (p : option PermissionResponse)
  (s : state) (target before : event -> bool) :
  target EvRequestPermission = false ->
  preceded target before false (effects (Index ImageProvider p s)) = true.
Proof.
  intro Ht. destruct p; cbn; [reflexivity |]. rewrite Ht. reflexivity.
Qed.

(** X19.  In every session, from any state and whatever the platform
    answers, nothing is written to the media library except directly
    after a capture call, and the success alert is never shown except
    directly after a write. *)
Theorem session_writes_follow_captures
  (ImageProvider : value) (turns : list turn) (s : state) :
  preceded is_write is_capture false (snd (session ImageProvider turns s)) = true /\
  preceded is_success_alert is_write false (snd (session ImageProvider turns s)) = true.
Proof.
  revert s. induction turns as [| [[p a] w] rest IH]; intro s.
  - split; reflexivity.
  - cbn [session].
    destruct (dispatch (tree (Index ImageProvider p s)) a)
      as [h |] eqn:Hd; cbn [snd].
    + destruct (handler_trace_ordered ImageProvider p s a h w Hd) as [Hw Ha].
      destruct (IH (after (h w s))) as [IHw IHa].
      split; repeat apply preceded_app;
        auto using render_effects_ordered.
    + destruct (IH s) as [IHw IHa].
      split; apply preceded_app; auto using render_effects_ordered.
Qed.

(** ** The further properties at concrete inputs *)

(** A write with no capture in front of it is refused by [preceded], and a
    session of a pick followed by a save makes its calls in this order. *)
Example preceded_refuses_bare_write :
  preceded is_write is_capture false [EvAlert "x"; EvSaveToLibrary shot_uri] = false /\
  snd (session bundled_background
         [(None, PressChoosePhoto, world_ok);
          (permission_undetermined, PressSave, world_ok)]
         initial_state)
    = [EvRequestPermission;
       EvLaunchImageLibrary true ["images"] 1;
       EvCaptureRef 700 1;
       EvSaveToLibrary shot_uri;
       EvAlert "Saved Succesfully!!!"].
Proof. split; reflexivity. Qed.

Lemma pickImageAsync_rejection_escapes_witness :
  outcome (pickImageAsync world_picker_rejects editing_state)
    = Throw (Rejection "Missing camera roll permission") /\
  after (pickImageAsync world_picker_rejects editing_state) = editing_state /\
  reports (trace (pickImageAsync world_picker_rejects editing_state)) = [].
Proof.
  exact (pickImageAsync_rejection_escapes world_picker_rejects editing_state _ eq_refl).
Defined.

Lemma pickImageAsync_no_asset_throws_witness :
  (exists message,
     outcome (pickImageAsync world_no_asset initial_state) = Throw (TypeError message)) /\
  after (pickImageAsync world_no_asset initial_state) = initial_state /\
  reports (trace (pickImageAsync world_no_asset initial_state)) = [].
Proof.
  exact (pickImageAsync_no_asset_throws world_no_asset initial_state _
           eq_refl eq_refl (or_intror eq_refl)).
Defined.

Lemma picked_photo_is_drawn_witness :
  source (canvas_image bundled_background None (after (pickImageAsync world_ok initial_state)))
    = VString (uri photo) /\
  style (canvas_image bundled_background None (after (pickImageAsync world_ok initial_state)))
    = styles_image.
Proof.
  destruct (picked_photo_is_drawn bundled_background None world_ok initial_state
              _ photo [] eq_refl eq_refl eq_refl) as [Hdrawn [_ [Hstyle _]]].
  split; [apply Hdrawn; discriminate | exact Hstyle].
Defined.

Lemma onReset_renders_initial_screen_witness :
  tree (Index bundled_background None (after (onReset bundled_background editing_state)))
    = tree (Index bundled_background None initial_state).
Proof.
  exact (onReset_renders_initial_screen bundled_background None editing_state eq_refl).
Defined.

Lemma sticker_picker_open_close_witness :
  emojiPicker_isVisible
    (tree (Index bundled_background None (after (onAddSticker editing_state)))) = true /\
  after (onEmojiModalClose (after (onAddSticker editing_state))) = editing_state.
Proof.
  destruct (sticker_picker_open_close bundled_background None editing_state eq_refl)
    as [Hshown [_ [_ [_ Hback]]]].
  split; [exact Hshown | exact Hback].
Defined.

Lemma only_save_captures_and_writes_witness :
  writes (trace (onSaveImageAsync world_ok editing_state)) = [EvSaveToLibrary shot_uri] /\
  PressSave = PressSave /\ showAppOptions editing_state = true.
Proof.
  split; [reflexivity |].
  apply (only_save_captures_and_writes bundled_background None editing_state
           PressSave onSaveImageAsync world_ok eq_refl).
  right. discriminate.
Defined.

Lemma only_choose_photo_launches_picker_witness :
  launches (trace (pickImageAsync world_ok initial_state))
    = [EvLaunchImageLibrary true ["images"] 1] /\
  PressChoosePhoto = PressChoosePhoto /\ showAppOptions initial_state = false.
Proof.
  split; [reflexivity |].
  apply (only_choose_photo_launches_picker bundled_background None initial_state
           PressChoosePhoto pickImageAsync world_ok eq_refl).
  discriminate.
Defined.

Lemma only_choose_photo_can_throw_witness :
  outcome (onSaveImageAsync world_write_throws editing_state) = Normal tt.
Proof.
  apply (only_choose_photo_can_throw bundled_background None editing_state
           PressSave onSaveImageAsync world_write_throws eq_refl).
  discriminate.
Defined.

Lemma tab_icon_identifies_tab_and_focus_witness :
  (Layout.screen_name Layout.about_screen = Layout.screen_name Layout.about_screen /\
   true = true) /\
  Layout.color (Layout.tabBarIcon Layout.about_screen true "#edf11aff") = "#edf11aff" /\
  Layout.size (Layout.tabBarIcon Layout.about_screen true "#edf11aff") = 24%Z.
Proof.
  apply (tab_icon_identifies_tab_and_focus Layout.about_screen Layout.about_screen
           true true "#edf11aff" "#edf11aff").
  - right. left. reflexivity.
  - right. left. reflexivity.
  - reflexivity.
Defined.
